(** * The WASI platform backend of libuv: a shallow embedding

    The backend under study is the file of WASI stubs that stands in for
    libuv's platform layer: loop initialisation and teardown, the I/O poll
    shim that degrades to a blocking sleep, the descriptor stubs, the fork
    reporter, the interface-name resolver and the argument passthrough.

    C functions are embedded as state transformers over a [World] that holds
    what a call can observe or change: [errno], the host clock and the
    memory in which the loops live.  A computation that would execute
    undefined behaviour (signed overflow, division by zero) has no result. *)

From Stdlib Require Import ZArith Lia String.
From stdpp Require Import base gmap.

Local Open Scope Z_scope.

(** ** The C type [int] *)

Module Int.

Definition INT_MIN : Z := -2147483648.
Definition INT_MAX : Z := 2147483647.

Definition in_range (z : Z) : Prop := INT_MIN <= z <= INT_MAX.

Definition in_rangeb (z : Z) : bool := (INT_MIN <=? z) && (z <=? INT_MAX).

(** The value of an [int] expression: defined only when the mathematical
    result is representable. *)
Definition checked (z : Z) : option Z :=
  if in_rangeb z then Some z else None.

(** Unary minus, [*], [/] and [%] on [int].  C division truncates towards
    zero and the remainder takes the sign of the dividend, which are
    [Z.quot] and [Z.rem]. *)
Definition neg (a : Z) : option Z := checked (- a).

Definition mul (a b : Z) : option Z := checked (a * b).

Definition div (a b : Z) : option Z :=
  if b =? 0 then None else checked (Z.quot a b).

Definition rem (a b : Z) : option Z :=
  if b =? 0 then None
  else if (a =? INT_MIN) && (b =? -1) then None
  else Some (Z.rem a b).

End Int.

(** ** [struct timespec] *)

Record timespec : Type := Timespec { tv_sec : Z; tv_nsec : Z }.

(** The duration a [timespec] denotes, in nanoseconds and in milliseconds. *)
Definition timespec_ns (ts : timespec) : Z :=
  tv_sec ts * 1000000000 + tv_nsec ts.

Definition timespec_ms (ts : timespec) : Z :=
  tv_sec ts * 1000 + Z.quot (tv_nsec ts) 1000000.

(** What [nanosleep] accepts: a non-negative number of seconds and a
    nanosecond field below one second. *)
Definition timespec_valid (ts : timespec) : Prop :=
  0 <= tv_sec ts /\ 0 <= tv_nsec ts < 1000000000.

(** Pointers are addresses. *)
Definition addr : Type := positive.

Declare Scope prog_scope.
Delimit Scope prog_scope with prog.

Section Backend.

(** [uv_loop_t] is declared in [uv.h]; the backend never looks inside a
    loop, so the type stays abstract. *)
Variable uv_loop_t : Type.

(** [ENOSYS] comes from the C library's [errno.h]. *)
Variable ENOSYS : Z.

(** The state a call runs in: the thread's [errno], the host clock in
    nanoseconds, and the loops in memory, by address. *)
Record World : Type := MkWorld {
  errno : Z;
  clock_ns : Z;
  loops : gmap addr uv_loop_t
}.

(** [nanosleep(req, NULL)] is the C library's: it returns its status and
    leaves the world as the host left it.  With a null second argument it
    reports no remaining time. *)
Variable libc_nanosleep : timespec -> World -> Z * World.

(** *** Computations *)

Definition M (A : Type) : Type := World -> option (A * World).

Definition ret {A : Type} (a : A) : M A := fun w => Some (a, w).

Definition bind {A B : Type} (m : M A) (k : A -> M B) : M B :=
  fun w => match m w with
           | Some (a, w') => k a w'
           | None => None
           end.

(** The value of an expression, undefined behaviour when it has none. *)
Definition eval {A : Type} (o : option A) : M A :=
  fun w => match o with
           | Some a => Some (a, w)
           | None => None
           end.

Definition set_errno (e : Z) : M unit :=
  fun w => Some (tt, {| errno := e; clock_ns := clock_ns w; loops := loops w |}).

Definition nanosleep (req : timespec) : M Z :=
  fun w => Some (libc_nanosleep req w).

Notation "x <- m ;; k" := (bind m (fun x => k))
  (at level 100, m at next level, right associativity) : prog_scope.
Notation "m ;; k" := (bind m (fun _ => k))
  (at level 100, right associativity) : prog_scope.

Local Open Scope prog_scope.

(** [n] calls in a row. *)
Fixpoint repeat_call (n : nat) (m : M unit) : M unit :=
  match n with
  | O => ret tt
  | S k => m ;; repeat_call k m
  end.

(** *** The backend *)

Definition uv__platform_loop_init (loop : addr) : M Z :=
  ret 0.

Definition uv__platform_loop_delete (loop : addr) : M unit :=
  ret tt.

(** The [timespec] that [uv__io_poll] fills in before it sleeps:
    [ts.tv_sec = timeout / 1000; ts.tv_nsec = (timeout % 1000) * 1000000;]
    computed in [int] and then stored, without loss, in fields that are
    at least as wide. *)
Definition poll_timespec (timeout : Z) : option timespec :=
  match Int.div timeout 1000, Int.rem timeout 1000 with
  | Some sec, Some ms =>
      match Int.mul ms 1000000 with
      | Some nsec => Some {| tv_sec := sec; tv_nsec := nsec |}
      | None => None
      end
  | _, _ => None
  end.

Definition uv__io_poll (loop : addr) (timeout : Z) : M unit :=
  if timeout >? 0 then
    ts <- eval (poll_timespec timeout) ;;
    nanosleep ts ;;
    ret tt
  else ret tt.

Definition uv__io_check_fd (loop : addr) (fd : Z) : M Z :=
  ret 0.

Definition uv__platform_invalidate_fd (loop : addr) (fd : Z) : M unit :=
  ret tt.

Definition uv__io_fork (loop : addr) : M Z :=
  set_errno ENOSYS ;;
  r <- eval (Int.neg ENOSYS) ;;
  ret r.

Definition uv__fs_event_close (handle : addr) : M unit :=
  ret tt.

Definition if_nametoindex (ifname : string) : M Z :=
  ret 0.

Definition uv_setup_args (argc : Z) (argv : list string) : M (list string) :=
  ret argv.

(** *** Assumptions about the C library, stated where they are used *)

(** [errno.h] gives every error number a positive [int] value. *)
Definition errno_constant (e : Z) : Prop := 0 < e <= Int.INT_MAX.

(** The host sleeps for at least what it is asked: a valid request is
    never cut short. *)
Definition sleeps_in_full : Prop :=
  forall (req : timespec) (w : World),
    timespec_valid req ->
    clock_ns w + timespec_ns req <= clock_ns (snd (libc_nanosleep req w)).

(** A host that sleeps for exactly the requested time and reports
    success. *)
Definition exact_nanosleep (req : timespec) (w : World) : Z * World :=
  (0, {| errno := errno w;
         clock_ns := clock_ns w + timespec_ns req;
         loops := loops w |}).

(** A world at time zero with no error recorded and no loop allocated. *)
Definition initial_world : World :=
  {| errno := 0; clock_ns := 0; loops := ∅ |}.

(** A host whose sleep is interrupted at once: [nanosleep] fails with
    status [-1], records the error number [e], and no time has passed. *)
Definition interrupted_nanosleep (e : Z) (req : timespec) (w : World)
    : Z * World :=
  (-1, {| errno := e; clock_ns := clock_ns w; loops := loops w |}).

(** *** Sequences of calls, as the engine makes them *)

(** One poll per timeout, in order: the loop iterations of the engine. *)
Fixpoint poll_each (loop : addr) (timeouts : list Z) : M unit :=
  match timeouts with
  | [] => ret tt
  | t :: rest => (uv__io_poll loop t ;; poll_each loop rest)
  end.

(** The time a run of polls asks for, in milliseconds: a timeout that is
    not positive asks for none. *)
Definition total_wait_ms (timeouts : list Z) : Z :=
  foldr (fun t acc => Z.max 0 t + acc) 0 timeouts.

(** One [uv__fs_event_close] per handle, in order. *)
Fixpoint close_each (handles : list addr) : M unit :=
  match handles with
  | [] => ret tt
  | h :: rest => (uv__fs_event_close h ;; close_each rest)
  end.

(** The life of a loop around some work: initialise, work, delete.  The
    result is the status of the initialisation and the result of the
    work. *)
Definition loop_lifetime {A : Type} (loop : addr) (body : M A) : M (Z * A) :=
  status <- uv__platform_loop_init loop ;;
  a <- body ;;
  uv__platform_loop_delete loop ;;
  ret (status, a).

(** ** Properties *)

(** *** Arithmetic of the timeout *)

Lemma checked_in_range (z : Z) :
  Int.in_range z -> Int.checked z = Some z.
Proof.
  unfold Int.in_range, Int.checked, Int.in_rangeb. intros [Hlo Hhi].
  apply Z.leb_le in Hlo. apply Z.leb_le in Hhi.
  rewrite Hlo, Hhi. reflexivity.
Qed.

Lemma checked_Some (z r : Z) :
  Int.checked z = Some r -> r = z /\ Int.in_range z.
Proof.
  unfold Int.checked, Int.in_rangeb, Int.in_range.
  destruct (Int.INT_MIN <=? z) eqn:Hlo; destruct (z <=? Int.INT_MAX) eqn:Hhi;
    simpl; intros H; try discriminate.
  apply Z.leb_le in Hlo. apply Z.leb_le in Hhi.
  injection H as <-. auto.
Qed.

Lemma rem_1000_bounds (t : Z) : 0 <= t -> 0 <= Z.rem t 1000 < 1000.
Proof. intros Ht. apply Z.rem_bound_pos; lia. Qed.

Lemma quot_1000_bounds (t : Z) : 0 <= t -> 0 <= Z.quot t 1000 <= t.
Proof.
  intros Ht. pose proof (Z.quot_rem' t 1000) as E.
  pose proof (rem_1000_bounds t Ht) as R.
  split; [apply Z.quot_pos; lia | lia].
Qed.

(** For a positive [int] every step of the construction is defined. *)
Lemma poll_timespec_pos (t : Z) :
  Int.in_range t -> 0 < t ->
  poll_timespec t =
    Some {| tv_sec := Z.quot t 1000; tv_nsec := Z.rem t 1000 * 1000000 |}.
Proof.
  intros Hr Ht.
  assert (0 <= t) as Ht0 by lia.
  pose proof (rem_1000_bounds t Ht0) as R.
  pose proof (quot_1000_bounds t Ht0) as Q.
  unfold poll_timespec, Int.div, Int.rem, Int.mul.
  replace (1000 =? 0) with false by reflexivity.
  replace (1000 =? -1) with false by reflexivity.
  rewrite andb_false_r.
  rewrite (checked_in_range (Z.quot t 1000)).
  2:{ unfold Int.in_range, Int.INT_MIN, Int.INT_MAX in *. lia. }
  rewrite (checked_in_range (Z.rem t 1000 * 1000000)).
  2:{ unfold Int.in_range, Int.INT_MIN, Int.INT_MAX. lia. }
  reflexivity.
Qed.

Lemma timespec_ns_poll (t : Z) :
  0 <= t ->
  timespec_ns {| tv_sec := Z.quot t 1000; tv_nsec := Z.rem t 1000 * 1000000 |}
  = t * 1000000.
Proof.
  intros Ht. unfold timespec_ns; simpl.
  pose proof (Z.quot_rem' t 1000). lia.
Qed.

(** *** Running the stubs *)

Lemma uv__io_poll_nonpos (loop : addr) (t : Z) (w : World) :
  t <= 0 -> uv__io_poll loop t w = Some (tt, w).
Proof.
  intros Ht. unfold uv__io_poll.
  destruct (t >? 0) eqn:E; [apply Z.gtb_lt in E; lia | reflexivity].
Qed.

Lemma uv__io_poll_pos (loop : addr) (t : Z) (w : World) :
  Int.in_range t -> 0 < t ->
  uv__io_poll loop t w =
    Some (tt, snd (libc_nanosleep
                     {| tv_sec := Z.quot t 1000;
                        tv_nsec := Z.rem t 1000 * 1000000 |} w)).
Proof.
  intros Hr Ht. unfold uv__io_poll.
  destruct (t >? 0) eqn:E; [| rewrite Z.gtb_ltb in E; apply Z.ltb_ge in E; lia].
  unfold bind, eval, nanosleep, ret.
  rewrite (poll_timespec_pos t Hr Ht).
  destruct (libc_nanosleep _ w) as [status w']. reflexivity.
Qed.

Lemma uv__io_fork_run (loop : addr) (w : World) :
  errno_constant ENOSYS ->
  uv__io_fork loop w =
    Some (- ENOSYS,
          {| errno := ENOSYS; clock_ns := clock_ns w; loops := loops w |}).
Proof.
  intros [Hpos Hmax]. unfold uv__io_fork, bind, set_errno, eval, ret, Int.neg.
  rewrite checked_in_range; [reflexivity |].
  unfold Int.in_range, Int.INT_MIN, Int.INT_MAX in *. lia.
Qed.

Lemma repeat_call_noop (m : M unit) (n : nat) :
  (forall w, m w = Some (tt, w)) ->
  forall w, repeat_call n m w = Some (tt, w).
Proof.
  intros Hm. induction n as [| k IH]; intros w; simpl.
  - reflexivity.
  - unfold bind. rewrite Hm. apply IH.
Qed.

(** *** The poller shim *)


(** C2.  For a positive timeout [t] the shim asks [nanosleep] for
    [t / 1000] seconds and [(t mod 1000) * 1000000] nanoseconds, once, and
    nothing is lost: seconds times 1000 plus nanoseconds over 1000000 is
    [t] again, so the request is for exactly [t] milliseconds. *)
Theorem uv__io_poll_timespec_lossless (loop : addr) (t : Z) (w : World) :
  Int.in_range t -> 0 < t ->
  exists ts : timespec,
    poll_timespec t = Some ts /\
    tv_sec ts = t / 1000 /\
    tv_nsec ts = (t mod 1000) * 1000000 /\
    tv_sec ts * 1000 + tv_nsec ts / 1000000 = t /\
    timespec_ms ts = t /\
    timespec_ns ts = t * 1000000 /\
    uv__io_poll loop t w = Some (tt, snd (libc_nanosleep ts w)).
Proof.
  intros Hr Ht. assert (0 <= t) as Ht0 by lia.
  exists {| tv_sec := Z.quot t 1000; tv_nsec := Z.rem t 1000 * 1000000 |}.
  assert (Z.quot t 1000 = t / 1000) as Eq by (apply Z.quot_div_nonneg; lia).
  assert (Z.rem t 1000 = t mod 1000) as Er by (apply Z.rem_mod_nonneg; lia).
  pose proof (Z.div_mod t 1000 ltac:(lia)) as Edm.
  repeat split.
  - apply poll_timespec_pos; assumption.
  - exact Eq.
  - simpl. rewrite Er. reflexivity.
  - simpl. rewrite Eq, Er, Z.div_mul by lia. lia.
  - unfold timespec_ms; simpl. rewrite Z.quot_mul by lia.
    pose proof (Z.quot_rem' t 1000). lia.
  - apply timespec_ns_poll; assumption.
  - apply uv__io_poll_pos; assumption.
Qed.

(** C10.  For a positive [int] timeout the [timespec] of the shim is well
    formed: the seconds are not negative, the nanoseconds lie in
    [0, 1000000000), and the product [(timeout % 1000) * 1000000] is at
    most 999000000, so it is computed in [int] without overflow. *)
Theorem poll_timespec_well_formed (t : Z) :
  Int.in_range t -> 0 < t ->
  exists ms ts : _,
    Int.rem t 1000 = Some ms /\
    Int.mul ms 1000000 = Some (tv_nsec ts) /\
    poll_timespec t = Some ts /\
    0 <= tv_sec ts /\
    0 <= tv_nsec ts < 1000000000 /\
    tv_nsec ts <= 999000000 /\
    Int.in_range (tv_nsec ts).
Proof.
  intros Hr Ht. assert (0 <= t) as Ht0 by lia.
  pose proof (rem_1000_bounds t Ht0) as R.
  pose proof (quot_1000_bounds t Ht0) as Q.
  exists (Z.rem t 1000).
  exists {| tv_sec := Z.quot t 1000; tv_nsec := Z.rem t 1000 * 1000000 |}.
  assert (Int.in_range (Z.rem t 1000 * 1000000)) as Hn
    by (unfold Int.in_range, Int.INT_MIN, Int.INT_MAX; lia).
  simpl. split; [| split; [| split; [| split; [| split; [| split]]]]].
  - unfold Int.rem. replace (1000 =? 0) with false by reflexivity.
    replace (1000 =? -1) with false by reflexivity.
    rewrite andb_false_r. reflexivity.
  - apply checked_in_range, Hn.
  - apply poll_timespec_pos; assumption.
  - lia.
  - lia.
  - lia.
  - exact Hn.
Qed.

(** *** The stubs *)

(** C3.  [uv__io_fork] returns [-ENOSYS] for every loop and in every
    world, and that code is not the success code [0]. *)
Theorem uv__io_fork_not_supported :
  errno_constant ENOSYS ->
  - ENOSYS <> 0 /\
  forall (loop : addr) (w : World),
    exists w' : World, uv__io_fork loop w = Some (- ENOSYS, w').
Proof.
  intros He. split.
  - destruct He; lia.
  - intros loop w. eexists. apply uv__io_fork_run, He.
Qed.

(** C4.  [uv__io_check_fd] returns success, [0], for every loop and every
    descriptor, negative ones included, and changes nothing. *)
Theorem uv__io_check_fd_succeeds (loop : addr) (fd : Z) (w : World) :
  uv__io_check_fd loop fd w = Some (0, w).
Proof. reflexivity. Qed.

(** C5.  [uv_setup_args] hands back its argument vector: same length,
    same element at every index, whatever [argc] is. *)
Theorem uv_setup_args_identity (argc : Z) (argv : list string) (w : World) :
  exists result : list string,
    uv_setup_args argc argv w = Some (result, w) /\
    result = argv /\
    length result = length argv /\
    forall i : nat, result !! i = argv !! i.
Proof. exists argv. repeat split. Qed.

(** C6.  [if_nametoindex] returns the index [0], no such interface, for
    every name, the empty one included. *)
Theorem if_nametoindex_absent (ifname : string) (w : World) :
  if_nametoindex ifname w = Some (0, w).
Proof. reflexivity. Qed.

(** C7.  [uv__platform_loop_init] returns success, [0], for every loop
    and in every world. *)
Theorem uv__platform_loop_init_succeeds (loop : addr) (w : World) :
  uv__platform_loop_init loop w = Some (0, w).
Proof. reflexivity. Qed.

(** C8.  [uv__platform_invalidate_fd] does nothing, and calling it [n]
    times in a row, [n >= 1], leaves the same state as calling it once:
    the state it started from, with [errno] untouched. *)
Theorem uv__platform_invalidate_fd_idempotent
    (loop : addr) (fd : Z) (w : World) (n : nat) :
  (1 <= n)%nat ->
  uv__platform_invalidate_fd loop fd w = Some (tt, w) /\
  repeat_call n (uv__platform_invalidate_fd loop fd) w =
    repeat_call 1 (uv__platform_invalidate_fd loop fd) w /\
  repeat_call n (uv__platform_invalidate_fd loop fd) w = Some (tt, w).
Proof.
  intros _.
  assert (forall v, uv__platform_invalidate_fd loop fd v = Some (tt, v)) as Hm
    by reflexivity.
  repeat split.
  - rewrite !(repeat_call_noop _ _ Hm). reflexivity.
  - apply repeat_call_noop, Hm.
Qed.

(** C9.  On a loop that has just been initialised [uv__io_fork] returns
    [-ENOSYS], which is not success, and changes [errno] only: the loops
    in memory and the clock are as before.  A call of [uv__io_poll] that
    follows returns. *)
Theorem uv__io_fork_leaves_loop_usable (loop : addr) (t : Z) (w : World) :
  errno_constant ENOSYS -> Int.in_range t ->
  exists w_fork w_poll : World,
    (uv__platform_loop_init loop ;; uv__io_fork loop) w
      = Some (- ENOSYS, w_fork) /\
    - ENOSYS <> 0 /\
    loops w_fork = loops w /\
    clock_ns w_fork = clock_ns w /\
    uv__io_poll loop t w_fork = Some (tt, w_poll).
Proof.
  intros He Hr.
  exists {| errno := ENOSYS; clock_ns := clock_ns w; loops := loops w |}.
  destruct (Z_lt_le_dec 0 t) as [Hpos | Hle].
  - eexists. repeat split.
    + unfold bind, uv__platform_loop_init, ret. apply uv__io_fork_run, He.
    + destruct He; lia.
    + apply uv__io_poll_pos; assumption.
  - eexists. repeat split.
    + unfold bind, uv__platform_loop_init, ret. apply uv__io_fork_run, He.
    + destruct He; lia.
    + apply uv__io_poll_nonpos, Hle.
Qed.

(** *** Beyond the single call *)

Lemma poll_timespec_valid (t : Z) :
  0 <= t ->
  timespec_valid {| tv_sec := Z.quot t 1000; tv_nsec := Z.rem t 1000 * 1000000 |}.
Proof.
  intros Ht. unfold timespec_valid; simpl.
  pose proof (rem_1000_bounds t Ht). pose proof (quot_1000_bounds t Ht). lia.
Qed.

Lemma uv__io_poll_clock (loop : addr) (t : Z) (w : World) :
  Int.in_range t -> sleeps_in_full ->
  exists w' : World,
    uv__io_poll loop t w = Some (tt, w') /\
    clock_ns w + Z.max 0 t * 1000000 <= clock_ns w'.
Proof.
  intros Hr Hsleep. destruct (Z_lt_le_dec 0 t) as [Hpos | Hle].
  - eexists. split; [apply uv__io_poll_pos; assumption |].
    rewrite Z.max_r by lia.
    rewrite <- (timespec_ns_poll t) by lia.
    apply Hsleep, poll_timespec_valid. lia.
  - exists w. split; [apply uv__io_poll_nonpos, Hle |].
    rewrite Z.max_l by lia. lia.
Qed.


(** X2.  For every [int] timeout [uv__io_poll] has defined behaviour, and
    it does to the world nothing but what one [nanosleep] on a valid
    request does: a relation between worlds that holds of a world and
    itself and across every such [nanosleep] holds across the poll. *)
Theorem uv__io_poll_frame
    (R : World -> World -> Prop) (loop : addr) (t : Z) (w : World) :
  Int.in_range t ->
  (forall v : World, R v v) ->
  (forall (req : timespec) (v : World),
     timespec_valid req -> R v (snd (libc_nanosleep req v))) ->
  exists w' : World, uv__io_poll loop t w = Some (tt, w') /\ R w w'.
Proof.
  intros Hr Hrefl Hstep. destruct (Z_lt_le_dec 0 t) as [Hpos | Hle].
  - eexists. split; [apply uv__io_poll_pos; assumption |].
    apply Hstep, poll_timespec_valid. lia.
  - exists w. split; [apply uv__io_poll_nonpos, Hle | apply Hrefl].
Qed.

(** X3.  A run of polls, one per timeout, on a host whose [nanosleep] is
    never cut short, returns with the clock advanced by at least the sum
    of the positive timeouts, in milliseconds. *)
Theorem poll_each_waits (loop : addr) (timeouts : list Z) (w : World) :
  Forall Int.in_range timeouts -> sleeps_in_full ->
  exists w' : World,
    poll_each loop timeouts w = Some (tt, w') /\
    clock_ns w + total_wait_ms timeouts * 1000000 <= clock_ns w'.
Proof.
  intros Hall Hsleep. revert w.
  induction Hall as [| t rest Ht Hrest IH]; intros w.
  - exists w. split; [reflexivity | simpl; lia].
  - destruct (uv__io_poll_clock loop t w Ht Hsleep) as (w1 & Hpoll & Hclock1).
    destruct (IH w1) as (w2 & Hrun & Hclock2).
    exists w2. split.
    + simpl. unfold bind. rewrite Hpoll. exact Hrun.
    + unfold total_wait_ms in *. simpl. lia.
Qed.

(** X4.  [uv__io_fork] leaves [errno] at [ENOSYS] whatever it was before
    and returns its negation, a negative number; a second call returns
    the same and changes nothing more. *)
Theorem uv__io_fork_errno (loop : addr) (w : World) :
  errno_constant ENOSYS ->
  exists (r : Z) (w' : World),
    uv__io_fork loop w = Some (r, w') /\
    errno w' = ENOSYS /\
    r = - errno w' /\
    r < 0 /\
    uv__io_fork loop w' = Some (r, w').
Proof.
  intros He.
  exists (- ENOSYS).
  exists {| errno := ENOSYS; clock_ns := clock_ns w; loops := loops w |}.
  split; [apply uv__io_fork_run, He |].
  split; [reflexivity |]. split; [reflexivity |].
  split; [destruct He; lia |].
  rewrite (uv__io_fork_run loop _ He). reflexivity.
Qed.

(** X5.  Initialising a loop before some work and deleting it after adds
    nothing to the work: the outcome is that of the work alone, with the
    status [0] of the initialisation beside its result, and the work is
    undefined exactly when it is on its own. *)
Theorem loop_lifetime_transparent
    {A : Type} (loop : addr) (body : M A) (w : World) :
  loop_lifetime loop body w =
    match body w with
    | Some (a, w') => Some ((0, a), w')
    | None => None
    end.
Proof.
  unfold loop_lifetime, bind, uv__platform_loop_init,
    uv__platform_loop_delete, ret.
  destruct (body w) as [[a w'] |]; reflexivity.
Qed.

(** X6.  Closing file-system event handles, any number of them, the same
    one twice or one that was never started, changes nothing and cannot
    fail. *)
Theorem close_each_noop (handles : list addr) (w : World) :
  close_each handles w = Some (tt, w).
Proof.
  induction handles as [| h rest IH]; simpl.
  - reflexivity.
  - unfold bind, uv__fs_event_close, ret. exact IH.
Qed.

(** X7.  A loop that is initialised, polled once with a timeout [t >= 0]
    and deleted, on a host whose [nanosleep] is never cut short: the
    initialisation reports [0], every step returns, and at the end the
    clock has advanced by at least [t] milliseconds. *)
Theorem loop_lifetime_poll_waits (loop : addr) (t : Z) (w : World) :
  Int.in_range t -> 0 <= t -> sleeps_in_full ->
  exists w' : World,
    loop_lifetime loop (uv__io_poll loop t) w = Some ((0, tt), w') /\
    clock_ns w + t * 1000000 <= clock_ns w'.
Proof.
  intros Hr Ht Hsleep.
  destruct (uv__io_poll_clock loop t w Hr Hsleep) as (w' & Hpoll & Hclock).
  exists w'. split.
  - unfold loop_lifetime, bind, uv__platform_loop_init,
      uv__platform_loop_delete, ret.
    rewrite Hpoll. reflexivity.
  - rewrite Z.max_r in Hclock by lia. exact Hclock.
Qed.

End Backend.

(** ** The backend on a concrete host

    The loops carry no data ([unit]), [ENOSYS] is 52 as in WASI's [errno.h],
    and [nanosleep] is [exact_nanosleep]. *)

Example poll_timespec_1500 :
  poll_timespec 1500 = Some {| tv_sec := 1; tv_nsec := 500000000 |}.
Proof. reflexivity. Qed.

Example poll_timespec_INT_MAX :
  poll_timespec Int.INT_MAX = Some {| tv_sec := 2147483; tv_nsec := 647000000 |}.
Proof. reflexivity. Qed.

Example uv__io_poll_50 :
  uv__io_poll unit (exact_nanosleep unit) 1%positive 50 (initial_world unit)
  = Some (tt, {| errno := 0; clock_ns := 50000000; loops := ∅ |}).
Proof. reflexivity. Qed.

Example uv__io_poll_minus_1 :
  uv__io_poll unit (exact_nanosleep unit) 1%positive (-1) (initial_world unit)
  = Some (tt, initial_world unit).
Proof. reflexivity. Qed.

Example uv__io_fork_52 :
  uv__io_fork unit 52 1%positive (initial_world unit)
  = Some (-52, {| errno := 52; clock_ns := 0; loops := ∅ |}).
Proof. reflexivity. Qed.

Lemma in_range_50 : Int.in_range 50.
Proof. unfold Int.in_range, Int.INT_MIN, Int.INT_MAX. lia. Defined.

Lemma errno_constant_52 : errno_constant 52.
Proof. unfold errno_constant, Int.INT_MAX. lia. Defined.

Lemma exact_nanosleep_sleeps_in_full (uv_loop_t : Type) :
  sleeps_in_full uv_loop_t (exact_nanosleep uv_loop_t).
Proof. intros req w _. simpl. lia. Defined.



Lemma uv__io_poll_timespec_lossless_witness :
  Int.in_range 1500 /\ 0 < 1500 /\
  exists ts : timespec,
    poll_timespec 1500 = Some ts /\
    tv_sec ts = 1500 / 1000 /\
    tv_nsec ts = (1500 mod 1000) * 1000000 /\
    tv_sec ts * 1000 + tv_nsec ts / 1000000 = 1500 /\
    timespec_ms ts = 1500 /\
    timespec_ns ts = 1500 * 1000000 /\
    uv__io_poll unit (exact_nanosleep unit) 1%positive 1500 (initial_world unit)
      = Some (tt, snd (exact_nanosleep unit ts (initial_world unit))).
Proof.
  assert (Int.in_range 1500) as Hr
    by (unfold Int.in_range, Int.INT_MIN, Int.INT_MAX; lia).
  assert (0 < 1500) as Hpos by lia.
  split; [exact Hr |]. split; [exact Hpos |].
  exact (uv__io_poll_timespec_lossless unit (exact_nanosleep unit) 1%positive
           1500 (initial_world unit) Hr Hpos).
Defined.

Lemma poll_timespec_well_formed_witness :
  Int.in_range 2147483647 /\ 0 < 2147483647 /\
  exists (ms : Z) (ts : timespec),
    Int.rem 2147483647 1000 = Some ms /\
    Int.mul ms 1000000 = Some (tv_nsec ts) /\
    poll_timespec 2147483647 = Some ts /\
    0 <= tv_sec ts /\
    0 <= tv_nsec ts < 1000000000 /\
    tv_nsec ts <= 999000000 /\
    Int.in_range (tv_nsec ts).
Proof.
  assert (Int.in_range 2147483647) as Hr
    by (unfold Int.in_range, Int.INT_MIN, Int.INT_MAX; lia).
  assert (0 < 2147483647) as Hpos by lia.
  split; [exact Hr |]. split; [exact Hpos |].
  exact (poll_timespec_well_formed 2147483647 Hr Hpos).
Defined.

Lemma uv__io_fork_not_supported_witness :
  errno_constant 52 /\
  - 52 <> 0 /\
  forall (loop : addr) (w : World unit),
    exists w' : World unit, uv__io_fork unit 52 loop w = Some (- 52, w').
Proof.
  split; [exact errno_constant_52 |].
  exact (uv__io_fork_not_supported unit 52 errno_constant_52).
Defined.

Lemma uv__platform_invalidate_fd_idempotent_witness :
  (1 <= 3)%nat /\
  uv__platform_invalidate_fd unit 1%positive (-7) (initial_world unit)
    = Some (tt, initial_world unit) /\
  repeat_call unit 3 (uv__platform_invalidate_fd unit 1%positive (-7))
    (initial_world unit)
    = repeat_call unit 1 (uv__platform_invalidate_fd unit 1%positive (-7))
        (initial_world unit) /\
  repeat_call unit 3 (uv__platform_invalidate_fd unit 1%positive (-7))
    (initial_world unit)
    = Some (tt, initial_world unit).
Proof.
  assert (1 <= 3)%nat as Hn by lia.
  split; [exact Hn |].
  exact (uv__platform_invalidate_fd_idempotent unit 1%positive (-7)
           (initial_world unit) 3%nat Hn).
Defined.

Lemma uv__io_fork_leaves_loop_usable_witness :
  errno_constant 52 /\ Int.in_range 50 /\
  exists w_fork w_poll : World unit,
    bind unit (uv__platform_loop_init unit 1%positive)
      (fun _ => uv__io_fork unit 52 1%positive) (initial_world unit)
      = Some (- 52, w_fork) /\
    - 52 <> 0 /\
    loops unit w_fork = loops unit (initial_world unit) /\
    clock_ns unit w_fork = clock_ns unit (initial_world unit) /\
    uv__io_poll unit (exact_nanosleep unit) 1%positive 50 w_fork
      = Some (tt, w_poll).
Proof.
  split; [exact errno_constant_52 |]. split; [exact in_range_50 |].
  exact (uv__io_fork_leaves_loop_usable unit 52 (exact_nanosleep unit)
           1%positive 50 (initial_world unit) errno_constant_52 in_range_50).
Defined.

(** *** Sequences of calls on a concrete host *)

Example poll_each_four :
  poll_each unit (exact_nanosleep unit) 1%positive [50; -1; 0; 1500]
    (initial_world unit)
  = Some (tt, {| errno := 0; clock_ns := 1550000000; loops := ∅ |}).
Proof. reflexivity. Qed.

Example uv__io_poll_interrupted :
  uv__io_poll unit (interrupted_nanosleep unit 27) 1%positive 50
    (initial_world unit)
  = Some (tt, {| errno := 27; clock_ns := 0; loops := ∅ |}).
Proof. reflexivity. Qed.

Lemma in_range_1500 : Int.in_range 1500.
Proof. unfold Int.in_range, Int.INT_MIN, Int.INT_MAX. lia. Defined.


Lemma uv__io_poll_frame_witness :
  Int.in_range 1500 /\
  exists w' : World unit,
    uv__io_poll unit (exact_nanosleep unit) 1%positive 1500 (initial_world unit)
      = Some (tt, w') /\
    (loops unit w' = loops unit (initial_world unit) /\
     clock_ns unit (initial_world unit) <= clock_ns unit w').
Proof.
  split; [exact in_range_1500 |].
  apply (uv__io_poll_frame unit (exact_nanosleep unit)
           (fun v v' => loops unit v' = loops unit v /\
                        clock_ns unit v <= clock_ns unit v')
           1%positive 1500 (initial_world unit) in_range_1500).
  - intros v. split; [reflexivity | lia].
  - intros req v [Hsec Hnsec]. simpl.
    split; [reflexivity | unfold timespec_ns; lia].
Defined.

Lemma poll_each_waits_witness :
  Forall Int.in_range [50; -1; 0; 1500] /\
  exists w' : World unit,
    poll_each unit (exact_nanosleep unit) 1%positive [50; -1; 0; 1500]
      (initial_world unit) = Some (tt, w') /\
    clock_ns unit (initial_world unit)
      + total_wait_ms [50; -1; 0; 1500] * 1000000 <= clock_ns unit w'.
Proof.
  assert (Forall Int.in_range [50; -1; 0; 1500]) as Hall
    by (repeat constructor;
        unfold Int.in_range, Int.INT_MIN, Int.INT_MAX; lia).
  split; [exact Hall |].
  exact (poll_each_waits unit (exact_nanosleep unit) 1%positive
           [50; -1; 0; 1500] (initial_world unit) Hall
           (exact_nanosleep_sleeps_in_full unit)).
Defined.

Lemma uv__io_fork_errno_witness :
  errno_constant 52 /\
  exists (r : Z) (w' : World unit),
    uv__io_fork unit 52 1%positive (initial_world unit) = Some (r, w') /\
    errno unit w' = 52 /\
    r = - errno unit w' /\
    r < 0 /\
    uv__io_fork unit 52 1%positive w' = Some (r, w').
Proof.
  split; [exact errno_constant_52 |].
  exact (uv__io_fork_errno unit 52 1%positive (initial_world unit)
           errno_constant_52).
Defined.

Lemma loop_lifetime_poll_waits_witness :
  Int.in_range 50 /\ 0 <= 50 /\
  exists w' : World unit,
    loop_lifetime unit 1%positive
      (uv__io_poll unit (exact_nanosleep unit) 1%positive 50)
      (initial_world unit) = Some ((0, tt), w') /\
    clock_ns unit (initial_world unit) + 50 * 1000000 <= clock_ns unit w'.
Proof.
  assert (0 <= 50) as Hnn by lia.
  split; [exact in_range_50 |]. split; [exact Hnn |].
  exact (loop_lifetime_poll_waits unit (exact_nanosleep unit) 1%positive 50
           (initial_world unit) in_range_50 Hnn
           (exact_nanosleep_sleeps_in_full unit)).
Defined.
